(** * The unstructured wrapper client of crossplane-runtime

    A shallow embedding of [pkg/resource/unstructured/client.go]: the
    [WrapperClient] decorator over controller-runtime's [client.Client], and
    the [wrapperStatusClient] it hands out for the status subresource.

    Go values are embedded as follows.
    - A value of interface type ([client.Object], [client.ObjectList]) is a
      pair of a dynamic type and a pointer, or the nil interface.
    - The method sets of the program's types are a table from type names to
      method bodies; a type assertion [x.(I)] looks the method of [I] up in
      the table at the dynamic type of [x].
    - A method call is a computation over the [World]: the heap of the objects
      the program holds pointers to, and everything that lies behind the
      wrapped client (its own fields, the API server).
    - [client.Client] and [client.StatusWriter] are records of methods.
    The wrapped client is an arbitrary such record throughout: the wrapper
    is studied over every client it can be given. A call always returns;
    panics (a method called through a nil client) are not part of the
    model. *)

From stdpp Require Import base strings gmap.

Set Implicit Arguments.
Set Default Proof Using "Type".

(** ** Go values *)

(** A heap location. *)
Definition loc := positive.

(** A Go pointer: nil, or the address of a heap object. *)
Inductive pointer :=
| nil_pointer
| addr (l : loc).

(** The name of a Go type, as [%T] prints it. *)
Definition GoType := string.

(** A value of an interface type: the nil interface, or a dynamic type with
    the pointer it carries. A nil pointer of a known type is not the nil
    interface. *)
Inductive iface :=
| iface_nil
| iface_val (t : GoType) (p : pointer).

(** Go's [error]: nil, or an error value. *)
Inductive error :=
| nil_error
| errors_New (msg : string).

(** [types.NamespacedName], which [client.ObjectKey] is an alias of. *)
Record ObjectKey := { Namespace : string; Name : string }.

(** The location an interface value points to, if any. *)
Definition target (v : iface) : option loc :=
  match v with
  | iface_val _ (addr l) => Some l
  | _ => None
  end.

(** The types of the packages the client is written against. The code under
    study never looks inside any of them. *)
Class Packages := {
  (** [context.Context] *)
  context_Context : Type;
  (** [client.GetOption] and its siblings *)
  GetOption : Type;
  ListOption : Type;
  CreateOption : Type;
  DeleteOption : Type;
  UpdateOption : Type;
  PatchOption : Type;
  DeleteAllOfOption : Type;
  (** [client.Patch] *)
  client_Patch : Type;
  (** [*runtime.Scheme] *)
  runtime_Scheme : Type;
  (** [meta.RESTMapper] *)
  meta_RESTMapper : Type;
  (** what a heap object holds *)
  Fields : Type
}.

(** ** Computations *)

Section World.
Context `{Packages} {Ext : Type}.

(** The state a call runs in: the heap, and whatever lies behind the wrapped
    client. *)
Record World := { heap : gmap loc Fields; ext : Ext }.

(** A Go call returning an [A]. *)
Definition M (A : Type) : Type := World -> A * World.

#[export] Instance M_ret : MRet M := fun A (a : A) w => (a, w).

#[export] Instance M_bind : MBind M :=
  fun A B (k : A -> M B) (m : M A) w => let (a, w') := m w in k a w'.

#[export] Instance M_fmap : FMap M :=
  fun A B (f : A -> B) (m : M A) w => let (a, w') := m w in (f a, w').

End World.

Arguments World {_} Ext.
Arguments M {_} Ext A.

(** ** Package [client] of controller-runtime

    Only the two interfaces the wrapper implements and consumes. The variadic
    [opts ...client.GetOption] is a list. *)
Module client.

Definition Object := iface.
Definition ObjectList := iface.

(** [client.StatusWriter] *)
Module StatusWriter.
Section Interface.
Context `{Packages} {Ext : Type}.

Record StatusWriter := {
  Update : context_Context -> Object -> list UpdateOption -> M Ext error;
  Patch :
    context_Context -> Object -> client_Patch -> list PatchOption ->
    M Ext error
}.

End Interface.
Arguments StatusWriter {_} Ext.
End StatusWriter.

(** [client.Client]: [Reader], [Writer], [StatusClient] and the two
    accessors. *)
Section Interface.
Context `{Packages} {Ext : Type}.

Record Client := {
  Get : context_Context -> ObjectKey -> Object -> list GetOption -> M Ext error;
  List : context_Context -> ObjectList -> list ListOption -> M Ext error;
  Create : context_Context -> Object -> list CreateOption -> M Ext error;
  Delete : context_Context -> Object -> list DeleteOption -> M Ext error;
  Update : context_Context -> Object -> list UpdateOption -> M Ext error;
  Patch :
    context_Context -> Object -> client_Patch -> list PatchOption ->
    M Ext error;
  DeleteAllOf :
    context_Context -> Object -> list DeleteAllOfOption -> M Ext error;
  Status : M Ext (StatusWriter.StatusWriter Ext);
  Scheme : M Ext runtime_Scheme;
  RESTMapper : M Ext meta_RESTMapper
}.

End Interface.
Arguments Client {_} Ext.

End client.

(** ** Package [unstructured] of crossplane-runtime *)

(** The dynamic types a converted [*unstructured.Unstructured] and
    [*unstructured.UnstructuredList] carry. *)
Definition ptr_Unstructured : GoType := "*unstructured.Unstructured".
Definition ptr_UnstructuredList : GoType := "*unstructured.UnstructuredList".

(** Passing a [*unstructured.Unstructured] where a [client.Object] is
    expected converts it to an interface value; so for the list. *)
Definition as_Object (p : pointer) : client.Object :=
  iface_val ptr_Unstructured p.
Definition as_ObjectList (p : pointer) : client.ObjectList :=
  iface_val ptr_UnstructuredList p.

Section Capabilities.
Context `{Packages} {Ext : Type}.

(** [type Wrapper interface { GetUnstructured() *unstructured.Unstructured }] *)
Record Wrapper := { GetUnstructured : M Ext pointer }.

(** [type ListWrapper interface
      { GetUnstructuredList() *unstructured.UnstructuredList }] *)
Record ListWrapper := { GetUnstructuredList : M Ext pointer }.

(** The method sets of the program's types, as far as the two interfaces
    go: the body of each method, by receiver type, applied to the receiver. *)
Class MethodSets := {
  method_GetUnstructured : GoType -> option (pointer -> M Ext pointer);
  method_GetUnstructuredList : GoType -> option (pointer -> M Ext pointer)
}.

Context {ms : MethodSets}.

(** [u, ok := obj.(Wrapper)] *)
Definition assert_Wrapper (obj : iface) : option Wrapper :=
  match obj with
  | iface_nil => None
  | iface_val t p =>
      match method_GetUnstructured t with
      | Some body => Some {| GetUnstructured := body p |}
      | None => None
      end
  end.

(** [u, ok := list.(ListWrapper)] *)
Definition assert_ListWrapper (list : iface) : option ListWrapper :=
  match list with
  | iface_nil => None
  | iface_val t p =>
      match method_GetUnstructuredList t with
      | Some body => Some {| GetUnstructuredList := body p |}
      | None => None
      end
  end.

End Capabilities.
Arguments Wrapper {_} Ext.
Arguments ListWrapper {_} Ext.
Arguments MethodSets {_} Ext.

(** [wrapperStatusClient]: the status-subresource side of the wrapper. *)
Module wrapperStatusClient.
Section Methods.
Context `{Packages} {Ext : Type} {ms : MethodSets Ext}.

(** [type wrapperStatusClient struct { kube client.StatusWriter }] *)
Record wrapperStatusClient := { kube : client.StatusWriter.StatusWriter Ext }.

(** [func (c *wrapperStatusClient) Update(ctx, obj, opts...) error] *)
Definition Update (c : wrapperStatusClient) (ctx : context_Context)
    (obj : client.Object) (opts : list UpdateOption) : M Ext error :=
  match assert_Wrapper obj with
  | Some u =>
      p ← GetUnstructured u;
      client.StatusWriter.Update (kube c) ctx (as_Object p) opts
  | None => client.StatusWriter.Update (kube c) ctx obj opts
  end.

(** [func (c *wrapperStatusClient) Patch(ctx, obj, patch, opts...) error] *)
Definition Patch (c : wrapperStatusClient) (ctx : context_Context)
    (obj : client.Object) (patch : client_Patch) (opts : list PatchOption) :
    M Ext error :=
  match assert_Wrapper obj with
  | Some u =>
      p ← GetUnstructured u;
      client.StatusWriter.Patch (kube c) ctx (as_Object p) patch opts
  | None => client.StatusWriter.Patch (kube c) ctx obj patch opts
  end.

(** [*wrapperStatusClient] used as a [client.StatusWriter]. *)
Definition as_StatusWriter (c : wrapperStatusClient) :
    client.StatusWriter.StatusWriter Ext :=
  {| client.StatusWriter.Update := Update c;
     client.StatusWriter.Patch := Patch c |}.

End Methods.
Arguments wrapperStatusClient {_} Ext.
End wrapperStatusClient.

(** [WrapperClient]: a [client.Client] that operates on the underlying
    [*unstructured.Unstructured] of the objects that expose one. *)
Module WrapperClient.
Section Methods.
Context `{Packages} {Ext : Type} {ms : MethodSets Ext}.

(** [type WrapperClient struct { kube client.Client }] *)
Record WrapperClient := { kube : client.Client Ext }.

(** [func (c *WrapperClient) Get(ctx, key, obj, opts...) error] *)
Definition Get (c : WrapperClient) (ctx : context_Context) (key : ObjectKey)
    (obj : client.Object) (opts : list GetOption) : M Ext error :=
  match assert_Wrapper obj with
  | Some u =>
      p ← GetUnstructured u; client.Get (kube c) ctx key (as_Object p) opts
  | None => client.Get (kube c) ctx key obj opts
  end.

(** [func (c *WrapperClient) List(ctx, list, opts...) error] *)
Definition List (c : WrapperClient) (ctx : context_Context)
    (list : client.ObjectList) (opts : Datatypes.list ListOption) :
    M Ext error :=
  match assert_ListWrapper list with
  | Some u =>
      p ← GetUnstructuredList u;
      client.List (kube c) ctx (as_ObjectList p) opts
  | None => client.List (kube c) ctx list opts
  end.

(** [func (c *WrapperClient) Create(ctx, obj, opts...) error] *)
Definition Create (c : WrapperClient) (ctx : context_Context)
    (obj : client.Object) (opts : list CreateOption) : M Ext error :=
  match assert_Wrapper obj with
  | Some u =>
      p ← GetUnstructured u; client.Create (kube c) ctx (as_Object p) opts
  | None => client.Create (kube c) ctx obj opts
  end.

(** [func (c *WrapperClient) Delete(ctx, obj, opts...) error] *)
Definition Delete (c : WrapperClient) (ctx : context_Context)
    (obj : client.Object) (opts : list DeleteOption) : M Ext error :=
  match assert_Wrapper obj with
  | Some u =>
      p ← GetUnstructured u; client.Delete (kube c) ctx (as_Object p) opts
  | None => client.Delete (kube c) ctx obj opts
  end.

(** [func (c *WrapperClient) Update(ctx, obj, opts...) error] *)
Definition Update (c : WrapperClient) (ctx : context_Context)
    (obj : client.Object) (opts : list UpdateOption) : M Ext error :=
  match assert_Wrapper obj with
  | Some u =>
      p ← GetUnstructured u; client.Update (kube c) ctx (as_Object p) opts
  | None => client.Update (kube c) ctx obj opts
  end.

(** [func (c *WrapperClient) Patch(ctx, obj, patch, opts...) error] *)
Definition Patch (c : WrapperClient) (ctx : context_Context)
    (obj : client.Object) (patch : client_Patch) (opts : list PatchOption) :
    M Ext error :=
  match assert_Wrapper obj with
  | Some u =>
      p ← GetUnstructured u;
      client.Patch (kube c) ctx (as_Object p) patch opts
  | None => client.Patch (kube c) ctx obj patch opts
  end.

(** [func (c *WrapperClient) DeleteAllOf(ctx, obj, opts...) error] *)
Definition DeleteAllOf (c : WrapperClient) (ctx : context_Context)
    (obj : client.Object) (opts : list DeleteAllOfOption) : M Ext error :=
  match assert_Wrapper obj with
  | Some u =>
      p ← GetUnstructured u;
      client.DeleteAllOf (kube c) ctx (as_Object p) opts
  | None => client.DeleteAllOf (kube c) ctx obj opts
  end.

(** [func (c *WrapperClient) Status() client.StatusWriter]: a new
    [wrapperStatusClient] around [c.kube.Status()]. *)
Definition Status (c : WrapperClient) :
    M Ext (client.StatusWriter.StatusWriter Ext) :=
  sw ← client.Status (kube c);
  mret (wrapperStatusClient.as_StatusWriter
          {| wrapperStatusClient.kube := sw |}).

(** [func (c *WrapperClient) Scheme() *runtime.Scheme] *)
Definition Scheme (c : WrapperClient) : M Ext runtime_Scheme :=
  client.Scheme (kube c).

(** [func (c *WrapperClient) RESTMapper() meta.RESTMapper] *)
Definition RESTMapper (c : WrapperClient) : M Ext meta_RESTMapper :=
  client.RESTMapper (kube c).

(** [*WrapperClient] used as a [client.Client]. *)
Definition as_Client (c : WrapperClient) : client.Client Ext :=
  {| client.Get := Get c;
     client.List := List c;
     client.Create := Create c;
     client.Delete := Delete c;
     client.Update := Update c;
     client.Patch := Patch c;
     client.DeleteAllOf := DeleteAllOf c;
     client.Status := Status c;
     client.Scheme := Scheme c;
     client.RESTMapper := RESTMapper c |}.

End Methods.
Arguments WrapperClient {_} Ext.
End WrapperClient.

(** [func NewClient(c client.Client) *WrapperClient] *)
Definition NewClient `{Packages} {Ext : Type} (c : client.Client Ext) :
    WrapperClient.WrapperClient Ext :=
  {| WrapperClient.kube := c |}.

(** ** Callers

    What a caller can ask of a [client.Client], as data: one constructor per
    method, the status subresource reached through [Status()]. *)
Section Calls.
Context `{Packages}.

Inductive Call :=
| CallGet (ctx : context_Context) (key : ObjectKey) (obj : client.Object)
    (opts : list GetOption)
| CallList (ctx : context_Context) (list : client.ObjectList)
    (opts : Datatypes.list ListOption)
| CallCreate (ctx : context_Context) (obj : client.Object)
    (opts : list CreateOption)
| CallDelete (ctx : context_Context) (obj : client.Object)
    (opts : list DeleteOption)
| CallUpdate (ctx : context_Context) (obj : client.Object)
    (opts : list UpdateOption)
| CallPatch (ctx : context_Context) (obj : client.Object)
    (patch : client_Patch) (opts : list PatchOption)
| CallDeleteAllOf (ctx : context_Context) (obj : client.Object)
    (opts : list DeleteAllOfOption)
| CallStatusUpdate (ctx : context_Context) (obj : client.Object)
    (opts : list UpdateOption)
| CallStatusPatch (ctx : context_Context) (obj : client.Object)
    (patch : client_Patch) (opts : list PatchOption)
| CallScheme
| CallRESTMapper.

Inductive Reply :=
| ReplyError (err : error)
| ReplyScheme (s : runtime_Scheme)
| ReplyRESTMapper (m : meta_RESTMapper).

(** The object or list a call is about. *)
Definition argument (call : Call) : option iface :=
  match call with
  | CallGet _ _ obj _ | CallCreate _ obj _ | CallDelete _ obj _
  | CallUpdate _ obj _ | CallPatch _ obj _ _ | CallDeleteAllOf _ obj _
  | CallStatusUpdate _ obj _ | CallStatusPatch _ obj _ _ => Some obj
  | CallList _ list _ => Some list
  | CallScheme | CallRESTMapper => None
  end.

Context {Ext : Type}.

(** [k.Get(ctx, key, obj, opts...)] and so on. *)
Definition invoke (k : client.Client Ext) (call : Call) : M Ext Reply :=
  match call with
  | CallGet ctx key obj opts => ReplyError <$> client.Get k ctx key obj opts
  | CallList ctx list opts => ReplyError <$> client.List k ctx list opts
  | CallCreate ctx obj opts => ReplyError <$> client.Create k ctx obj opts
  | CallDelete ctx obj opts => ReplyError <$> client.Delete k ctx obj opts
  | CallUpdate ctx obj opts => ReplyError <$> client.Update k ctx obj opts
  | CallPatch ctx obj patch opts =>
      ReplyError <$> client.Patch k ctx obj patch opts
  | CallDeleteAllOf ctx obj opts =>
      ReplyError <$> client.DeleteAllOf k ctx obj opts
  | CallStatusUpdate ctx obj opts =>
      sw ← client.Status k;
      ReplyError <$> client.StatusWriter.Update sw ctx obj opts
  | CallStatusPatch ctx obj patch opts =>
      sw ← client.Status k;
      ReplyError <$> client.StatusWriter.Patch sw ctx obj patch opts
  | CallScheme => ReplyScheme <$> client.Scheme k
  | CallRESTMapper => ReplyRESTMapper <$> client.RESTMapper k
  end.

(** A caller issuing one call after the other on the same client. *)
Fixpoint run (k : client.Client Ext) (calls : list Call) :
    M Ext (list Reply) :=
  match calls with
  | [] => mret []
  | call :: rest => r ← invoke k call; rs ← run k rest; mret (r :: rs)
  end.

(** A client that writes to the heap only through the reference it is
    handed. *)
Definition writes_through_argument (k : client.Client Ext) : Prop :=
  forall (call : Call) (w : World Ext) (l : loc),
    argument call ≫= target ≠ Some l ->
    heap (invoke k call w).2 !! l = heap w !! l.

End Calls.

(** ** The routing rule, in the words of the specification

    "Test whether the argument additionally satisfies the unstructured-exposing
    capability. If yes: invoke the identical underlying-client operation,
    passing the object's exposed unstructured reference in place of the
    original argument. If no: invoke it with the original argument." *)
Module Spec.
Section Rule.
Context `{Packages} {Ext : Type} {ms : MethodSets Ext}.

(** The accessor an object exposes, if its type has the capability. *)
Definition exposed_object (obj : client.Object) : option (M Ext pointer) :=
  GetUnstructured <$> assert_Wrapper obj.

(** The same for a list and the list capability. *)
Definition exposed_list (list : client.ObjectList) : option (M Ext pointer) :=
  GetUnstructuredList <$> assert_ListWrapper list.

(** The accessor the argument of a call exposes. *)
Definition exposed (call : Call) : option (M Ext pointer) :=
  match call with
  | CallList _ list _ => exposed_list list
  | CallGet _ _ obj _ | CallCreate _ obj _ | CallDelete _ obj _
  | CallUpdate _ obj _ | CallPatch _ obj _ _ | CallDeleteAllOf _ obj _
  | CallStatusUpdate _ obj _ | CallStatusPatch _ obj _ _ => exposed_object obj
  | CallScheme | CallRESTMapper => None
  end.

(** A call with the pointer [U], converted, in the place of its argument. *)
Definition with_reference (call : Call) (U : pointer) : Call :=
  match call with
  | CallGet ctx key _ opts => CallGet ctx key (as_Object U) opts
  | CallList ctx _ opts => CallList ctx (as_ObjectList U) opts
  | CallCreate ctx _ opts => CallCreate ctx (as_Object U) opts
  | CallDelete ctx _ opts => CallDelete ctx (as_Object U) opts
  | CallUpdate ctx _ opts => CallUpdate ctx (as_Object U) opts
  | CallPatch ctx _ patch opts => CallPatch ctx (as_Object U) patch opts
  | CallDeleteAllOf ctx _ opts => CallDeleteAllOf ctx (as_Object U) opts
  | CallStatusUpdate ctx _ opts => CallStatusUpdate ctx (as_Object U) opts
  | CallStatusPatch ctx _ patch opts =>
      CallStatusPatch ctx (as_Object U) patch opts
  | CallScheme => CallScheme
  | CallRESTMapper => CallRESTMapper
  end.

(** The argument the wrapped client is to receive. *)
Definition forwarded_object (obj : client.Object) : M Ext client.Object :=
  match exposed_object obj with
  | Some accessor => as_Object <$> accessor
  | None => mret obj
  end.

Definition forwarded_list (list : client.ObjectList) :
    M Ext client.ObjectList :=
  match exposed_list list with
  | Some accessor => as_ObjectList <$> accessor
  | None => mret list
  end.

(** The answer to one call: the identical operation of the wrapped client
    [k] on the forwarded argument; the status subresource is that of [k]. *)
Definition route (k : client.Client Ext) (call : Call) : M Ext Reply :=
  match call with
  | CallGet ctx key obj opts =>
      obj' ← forwarded_object obj; invoke k (CallGet ctx key obj' opts)
  | CallList ctx list opts =>
      list' ← forwarded_list list; invoke k (CallList ctx list' opts)
  | CallCreate ctx obj opts =>
      obj' ← forwarded_object obj; invoke k (CallCreate ctx obj' opts)
  | CallDelete ctx obj opts =>
      obj' ← forwarded_object obj; invoke k (CallDelete ctx obj' opts)
  | CallUpdate ctx obj opts =>
      obj' ← forwarded_object obj; invoke k (CallUpdate ctx obj' opts)
  | CallPatch ctx obj patch opts =>
      obj' ← forwarded_object obj; invoke k (CallPatch ctx obj' patch opts)
  | CallDeleteAllOf ctx obj opts =>
      obj' ← forwarded_object obj; invoke k (CallDeleteAllOf ctx obj' opts)
  | CallStatusUpdate ctx obj opts =>
      sw ← client.Status k;
      obj' ← forwarded_object obj;
      ReplyError <$> client.StatusWriter.Update sw ctx obj' opts
  | CallStatusPatch ctx obj patch opts =>
      sw ← client.Status k;
      obj' ← forwarded_object obj;
      ReplyError <$> client.StatusWriter.Patch sw ctx obj' patch opts
  | CallScheme => invoke k CallScheme
  | CallRESTMapper => invoke k CallRESTMapper
  end.

(** The answers to a sequence of calls, all of them routed to [k]. *)
Fixpoint delegate (k : client.Client Ext) (calls : list Call) :
    M Ext (list Reply) :=
  match calls with
  | [] => mret []
  | call :: rest => r ← route k call; rs ← delegate k rest; mret (r :: rs)
  end.

End Rule.
End Spec.

(** ** A test double

    A wrapped client in the manner of a mock: it keeps the calls it receives
    and answers from a canned state. Every opaque type is a string. *)
Module fake.

Definition packages : Packages :=
  {| context_Context := string;
     GetOption := string;
     ListOption := string;
     CreateOption := string;
     DeleteOption := string;
     UpdateOption := string;
     PatchOption := string;
     DeleteAllOfOption := string;
     client_Patch := string;
     runtime_Scheme := string;
     meta_RESTMapper := string;
     Fields := string |}.
#[local] Existing Instance packages.

(** Behind the double: the calls received so far, oldest first. *)
Definition Log := list Call.

Definition record (call : Call) : M Log unit :=
  fun w => ((), {| heap := heap w; ext := ext w ++ [call] |}).

(** Populate the object a reference points to; a reference that points
    nowhere is an error. *)
Definition populate (v : iface) (content : string) : M Log error :=
  fun w =>
    match target v with
    | Some l => (nil_error, {| heap := <[l := content]> (heap w); ext := ext w |})
    | None => (errors_New "nil object", w)
    end.

Definition not_found (key : ObjectKey) : bool := String.eqb (Name key) "".

Definition status_writer : client.StatusWriter.StatusWriter Log :=
  {| client.StatusWriter.Update ctx obj opts :=
       record (CallStatusUpdate ctx obj opts);; populate obj "status updated";
     client.StatusWriter.Patch ctx obj patch opts :=
       record (CallStatusPatch ctx obj patch opts);;
       populate obj ("status patched: " +:+ patch) |}.

Definition kube : client.Client Log :=
  {| client.Get ctx key obj opts :=
       record (CallGet ctx key obj opts);;
       if not_found key then mret (errors_New "not found")
       else populate obj ("got " +:+ Name key);
     client.List ctx list opts :=
       record (CallList ctx list opts);; populate list "listed";
     client.Create ctx obj opts :=
       record (CallCreate ctx obj opts);; populate obj "created";
     client.Delete ctx obj opts :=
       record (CallDelete ctx obj opts);; mret nil_error;
     client.Update ctx obj opts :=
       record (CallUpdate ctx obj opts);; populate obj "updated";
     client.Patch ctx obj patch opts :=
       record (CallPatch ctx obj patch opts);;
       populate obj ("patched: " +:+ patch);
     client.DeleteAllOf ctx obj opts :=
       record (CallDeleteAllOf ctx obj opts);; mret nil_error;
     client.Status := mret status_writer;
     client.Scheme := record CallScheme;; mret "scheme";
     client.RESTMapper := record CallRESTMapper;; mret "mapper" |}.

(** A second double, whose status writer changes as calls come in: the
    writer [Status()] returns answers with the number of calls the double
    had received when it was asked. *)
Definition numbered_writer (n : nat) : client.StatusWriter.StatusWriter Log :=
  {| client.StatusWriter.Update ctx obj opts :=
       record (CallStatusUpdate ctx obj opts);;
       mret (errors_New (if Nat.eqb n 0 then "writer 0" else "later writer"));
     client.StatusWriter.Patch ctx obj patch opts :=
       record (CallStatusPatch ctx obj patch opts);;
       mret (errors_New (if Nat.eqb n 0 then "writer 0" else "later writer"))
  |}.

Definition rotating : client.Client Log :=
  {| client.Get := client.Get kube;
     client.List := client.List kube;
     client.Create := client.Create kube;
     client.Delete := client.Delete kube;
     client.Update := client.Update kube;
     client.Patch := client.Patch kube;
     client.DeleteAllOf := client.DeleteAllOf kube;
     client.Status := fun w => (numbered_writer (length (ext w)), w);
     client.Scheme := client.Scheme kube;
     client.RESTMapper := client.RESTMapper kube |}.

(** The types of the program under test.
    - [*Composite] embeds its unstructured form. Its accessor guards the
      receiver, [if c == nil { return nil }; return &c.Unstructured]: nil
      for a nil receiver, the location after the receiver's otherwise.
    - [*CompositeList] does the same for lists.
    - [*Hollow] implements [Wrapper] and exposes nil: [return nil], without
      a look at the receiver.
    - [*Both] implements the two interfaces.
    - every other type, [*v1.ConfigMap] say, implements neither. *)
Definition embedded (p : pointer) : M Log pointer :=
  mret (match p with addr l => addr (Pos.succ l) | nil_pointer => nil_pointer end).

Definition methods : MethodSets Log :=
  {| method_GetUnstructured t :=
       if String.eqb t "*Composite" then Some embedded
       else if String.eqb t "*Hollow" then Some (fun _ => mret nil_pointer)
       else if String.eqb t "*Both" then Some embedded
       else None;
     method_GetUnstructuredList t :=
       if String.eqb t "*CompositeList" then Some embedded
       else if String.eqb t "*Both" then Some embedded
       else None |}.

(** A heap with a composite at 1 (its unstructured form at 2), a config map
    at 5 and a composite list at 7 (its unstructured form at 8). *)
Definition world : World Log :=
  {| heap := {[ 1%positive := "composite"; 2%positive := "{}";
                5%positive := "configmap";
                7%positive := "list"; 8%positive := "[]" ]};
     ext := [] |}.

Definition composite : client.Object := iface_val "*Composite" (addr 1%positive).
Definition configmap : client.Object := iface_val "*v1.ConfigMap" (addr 5%positive).
Definition composites : client.ObjectList :=
  iface_val "*CompositeList" (addr 7%positive).
Definition hollow : client.Object := iface_val "*Hollow" (addr 5%positive).
Definition both : iface := iface_val "*Both" (addr 1%positive).

Definition foo_bar : ObjectKey := {| Namespace := "bar"; Name := "foo" |}.
Definition missing : ObjectKey := {| Namespace := "bar"; Name := "" |}.

(** What the type assertions find on the composite, the composite list and
    the hollow object. *)
Definition composite_Wrapper : Wrapper Log :=
  {| GetUnstructured := embedded (addr 1%positive) |}.
Definition composites_ListWrapper : ListWrapper Log :=
  {| GetUnstructuredList := embedded (addr 7%positive) |}.
Definition hollow_Wrapper : Wrapper Log :=
  {| GetUnstructured := mret nil_pointer |}.

(** A second program, whose types build their unstructured form on first
    use: the accessor of [*Lazy] and of [*LazyList] marks the receiver as
    initialised, a write to the object itself, and returns the location
    after it; a nil receiver is returned as nil. *)
Definition lazily (p : pointer) : M Log pointer :=
  fun w =>
    match p with
    | addr l =>
        (addr (Pos.succ l),
         {| heap := <[l := "initialised"]> (heap w); ext := ext w |})
    | nil_pointer => (nil_pointer, w)
    end.

Definition lazy_methods : MethodSets Log :=
  {| method_GetUnstructured t :=
       if String.eqb t "*Lazy" then Some lazily else None;
     method_GetUnstructuredList t :=
       if String.eqb t "*LazyList" then Some lazily else None |}.

Definition lazy : client.Object := iface_val "*Lazy" (addr 1%positive).
Definition lazies : client.ObjectList :=
  iface_val "*LazyList" (addr 7%positive).
Definition lazy_Wrapper : Wrapper Log :=
  {| GetUnstructured := lazily (addr 1%positive) |}.
Definition lazies_ListWrapper : ListWrapper Log :=
  {| GetUnstructuredList := lazily (addr 7%positive) |}.

(** A caller updating the composite. *)
Definition update_composite : Call := CallUpdate "ctx" composite ["opt"].

(** A caller at work: a plain object, a composite, a list, the status
    subresource, a key the server does not know, a hollow object, the
    scheme. *)
Definition script : list Call :=
  [ CallGet "ctx" foo_bar configmap ["get"];
    CallUpdate "ctx" composite ["update"];
    CallList "ctx" composites ["list"];
    CallStatusPatch "ctx" composite "patch" ["status"];
    CallGet "ctx" missing composite [];
    CallCreate "ctx" hollow [];
    CallScheme ].

(** The wrapper under test, and a status client built by hand. *)
Definition wrapper : WrapperClient.WrapperClient Log := NewClient kube.
Definition status : wrapperStatusClient.wrapperStatusClient Log :=
  {| wrapperStatusClient.kube := status_writer |}.

End fake.

(** ** Disciplines of programs and clients

    What a program or a wrapped client may be known to respect; the wrapper
    is studied under each further on. *)
Section Disciplines.
Context `{Packages} {Ext : Type}.

(** The types of apimachinery that carry the unstructured form do not
    themselves have the methods of the two interfaces. *)
Definition unstructured_is_plain (ms : MethodSets Ext) : Prop :=
  method_GetUnstructured ptr_Unstructured = None
  /\ method_GetUnstructuredList ptr_UnstructuredList = None.

(** A status writer that writes to the heap only through the reference it
    is handed. *)
Definition status_writer_writes_through_argument
    (sw : client.StatusWriter.StatusWriter Ext) : Prop :=
  (forall ctx obj (opts : list UpdateOption) (w : World Ext) (l : loc),
     target obj ≠ Some l ->
     heap (client.StatusWriter.Update sw ctx obj opts w).2 !! l
     = heap w !! l)
  /\ (forall ctx obj patch (opts : list PatchOption) (w : World Ext) (l : loc),
        target obj ≠ Some l ->
        heap (client.StatusWriter.Patch sw ctx obj patch opts w).2 !! l
        = heap w !! l).

(** From [before] to [after], nothing but the object [U] points to has
    changed. *)
Definition left_alone_except (U : pointer) (before after : World Ext) : Prop :=
  forall l : loc, U ≠ addr l -> heap after !! l = heap before !! l.

(** Every accessor of the program returns its pointer and writes nothing. *)
Definition accessors_are_pure (ms : MethodSets Ext) : Prop :=
  (forall t body p (w : World Ext),
     method_GetUnstructured t = Some body -> (body p w).2 = w)
  /\ (forall t body p (w : World Ext),
        method_GetUnstructuredList t = Some body -> (body p w).2 = w).

(** A client that counts the calls it serves: [count] goes up by one with
    each. *)
Definition counts_its_calls (count : World Ext -> nat)
    (k : client.Client Ext) : Prop :=
  forall (call : Call) (w : World Ext),
    count (invoke k call w).2 = S (count w).

End Disciplines.

(** * Properties *)

(** ** Running computations *)

Section Running.
Context `{Packages} {Ext : Type}.
Implicit Types (w : World Ext).

Lemma run_bind {A B} (m : M Ext A) (f : A -> M Ext B) w :
  (m ≫= f) w = f (m w).1 (m w).2.
Proof. unfold mbind, M_bind. by destruct (m w). Qed.

Lemma run_fmap {A B} (g : A -> B) (m : M Ext A) w :
  (g <$> m) w = (g (m w).1, (m w).2).
Proof. unfold fmap, M_fmap. by destruct (m w). Qed.

Lemma run_ret {A} (a : A) w : (mret a : M Ext A) w = (a, w).
Proof. done. Qed.

End Running.

Ltac run_steps :=
  repeat (rewrite run_bind || rewrite run_fmap || rewrite run_ret).

Section Properties.
Context `{Packages} {Ext : Type} {ms : MethodSets Ext}.

Implicit Types (c : WrapperClient.WrapperClient Ext).
Implicit Types (s : wrapperStatusClient.wrapperStatusClient Ext).
Implicit Types (k : client.Client Ext) (w : World Ext).
Implicit Types (obj : client.Object) (list : client.ObjectList).
Implicit Types (u : Wrapper Ext) (ul : ListWrapper Ext) (p : pointer).

(** ** The rule and the type assertions *)

Lemma forwarded_object_plain obj w :
  assert_Wrapper obj = None -> Spec.forwarded_object obj w = (obj, w).
Proof. unfold Spec.forwarded_object, Spec.exposed_object. by intros ->. Qed.

Lemma forwarded_object_wrapped obj u w p w' :
  assert_Wrapper obj = Some u -> GetUnstructured u w = (p, w') ->
  Spec.forwarded_object obj w = (as_Object p, w').
Proof.
  unfold Spec.forwarded_object, Spec.exposed_object. intros -> E. simpl.
  by rewrite run_fmap, E.
Qed.

Lemma forwarded_list_plain list w :
  assert_ListWrapper list = None -> Spec.forwarded_list list w = (list, w).
Proof. unfold Spec.forwarded_list, Spec.exposed_list. by intros ->. Qed.

Lemma forwarded_list_wrapped list ul w p w' :
  assert_ListWrapper list = Some ul -> GetUnstructuredList ul w = (p, w') ->
  Spec.forwarded_list list w = (as_ObjectList p, w').
Proof.
  unfold Spec.forwarded_list, Spec.exposed_list. intros -> E. simpl.
  by rewrite run_fmap, E.
Qed.

(** ** Objects without the capability *)

(** C1: when the dynamic type of the object does not implement [Wrapper]
    (resp. that of the list does not implement [ListWrapper]), each of [Get],
    [List], [Create], [Delete], [Update], [Patch] and [DeleteAllOf] is the
    identical operation of the wrapped client on the very same object, key,
    patch and options: the same call, hence the same result. *)
Theorem plain_argument_is_forwarded_as_is c ctx key obj list patch
    (gopts : Datatypes.list GetOption) (lopts : Datatypes.list ListOption)
    (copts : Datatypes.list CreateOption) (dopts : Datatypes.list DeleteOption)
    (uopts : Datatypes.list UpdateOption) (popts : Datatypes.list PatchOption)
    (aopts : Datatypes.list DeleteAllOfOption) :
  assert_Wrapper obj = None ->
  assert_ListWrapper list = None ->
  WrapperClient.Get c ctx key obj gopts
    = client.Get (WrapperClient.kube c) ctx key obj gopts
  /\ WrapperClient.List c ctx list lopts
    = client.List (WrapperClient.kube c) ctx list lopts
  /\ WrapperClient.Create c ctx obj copts
    = client.Create (WrapperClient.kube c) ctx obj copts
  /\ WrapperClient.Delete c ctx obj dopts
    = client.Delete (WrapperClient.kube c) ctx obj dopts
  /\ WrapperClient.Update c ctx obj uopts
    = client.Update (WrapperClient.kube c) ctx obj uopts
  /\ WrapperClient.Patch c ctx obj patch popts
    = client.Patch (WrapperClient.kube c) ctx obj patch popts
  /\ WrapperClient.DeleteAllOf c ctx obj aopts
    = client.DeleteAllOf (WrapperClient.kube c) ctx obj aopts.
Proof.
  intros Hobj Hlist.
  unfold WrapperClient.Get, WrapperClient.List, WrapperClient.Create,
    WrapperClient.Delete, WrapperClient.Update, WrapperClient.Patch,
    WrapperClient.DeleteAllOf.
  rewrite Hobj, Hlist. repeat split.
Qed.

(** ** Objects with the capability *)

(** C2: when the dynamic type of the object implements [Wrapper] (resp. that
    of the list implements [ListWrapper]), each operation calls the accessor
    and then the identical operation of the wrapped client, with the pointer
    the accessor returned in the place of the argument and the key, patch and
    options as they came. *)
Theorem exposed_reference_is_forwarded c ctx key obj list patch u ul
    w p w' q w''
    (gopts : Datatypes.list GetOption) (lopts : Datatypes.list ListOption)
    (copts : Datatypes.list CreateOption) (dopts : Datatypes.list DeleteOption)
    (uopts : Datatypes.list UpdateOption) (popts : Datatypes.list PatchOption)
    (aopts : Datatypes.list DeleteAllOfOption) :
  assert_Wrapper obj = Some u ->
  GetUnstructured u w = (p, w') ->
  assert_ListWrapper list = Some ul ->
  GetUnstructuredList ul w = (q, w'') ->
  WrapperClient.Get c ctx key obj gopts w
    = client.Get (WrapperClient.kube c) ctx key (as_Object p) gopts w'
  /\ WrapperClient.List c ctx list lopts w
    = client.List (WrapperClient.kube c) ctx (as_ObjectList q) lopts w''
  /\ WrapperClient.Create c ctx obj copts w
    = client.Create (WrapperClient.kube c) ctx (as_Object p) copts w'
  /\ WrapperClient.Delete c ctx obj dopts w
    = client.Delete (WrapperClient.kube c) ctx (as_Object p) dopts w'
  /\ WrapperClient.Update c ctx obj uopts w
    = client.Update (WrapperClient.kube c) ctx (as_Object p) uopts w'
  /\ WrapperClient.Patch c ctx obj patch popts w
    = client.Patch (WrapperClient.kube c) ctx (as_Object p) patch popts w'
  /\ WrapperClient.DeleteAllOf c ctx obj aopts w
    = client.DeleteAllOf (WrapperClient.kube c) ctx (as_Object p) aopts w'.
Proof.
  intros Hobj Hp Hlist Hq.
  unfold WrapperClient.Get, WrapperClient.List, WrapperClient.Create,
    WrapperClient.Delete, WrapperClient.Update, WrapperClient.Patch,
    WrapperClient.DeleteAllOf.
  rewrite Hobj, Hlist.
  repeat split; rewrite run_bind, ?Hp, ?Hq; reflexivity.
Qed.

(** ** The wrapper follows the rule *)

(** Asked through its [client.Client] methods, the wrapper answers every
    call as the rule says. *)
Lemma invoke_wrapper_route k (call : Call) w :
  invoke (WrapperClient.as_Client (NewClient k)) call w = Spec.route k call w.
Proof.
  destruct call; simpl;
    unfold WrapperClient.Get, WrapperClient.List, WrapperClient.Create,
      WrapperClient.Delete, WrapperClient.Update, WrapperClient.Patch,
      WrapperClient.DeleteAllOf, WrapperClient.Status, WrapperClient.Scheme,
      WrapperClient.RESTMapper, Spec.forwarded_object, Spec.forwarded_list,
      Spec.exposed_object, Spec.exposed_list; simpl;
    try reflexivity.
  all: try (destruct (assert_Wrapper obj); simpl; run_steps; reflexivity).
  - destruct (assert_ListWrapper list); simpl; run_steps; reflexivity.
  - run_steps. simpl. unfold wrapperStatusClient.Update. simpl.
    destruct (assert_Wrapper obj); simpl; run_steps; reflexivity.
  - run_steps. simpl. unfold wrapperStatusClient.Patch. simpl.
    destruct (assert_Wrapper obj); simpl; run_steps; reflexivity.
Qed.

Lemma argument_with_reference (call : Call) U l :
  U ≠ addr l -> argument (Spec.with_reference call U) ≫= target ≠ Some l.
Proof.
  intros HU. destruct call, U as [|l']; simpl; try discriminate;
    intros [= ->]; by apply HU.
Qed.

(** What a client that writes through its argument leaves alone when it is
    handed [U]. *)
Lemma writes_through_reference k (call : Call) U w :
  writes_through_argument k ->
  left_alone_except U w (invoke k (Spec.with_reference call U) w).2.
Proof.
  intros Hk l HU. apply Hk. by apply argument_with_reference.
Qed.

Lemma target_as_Object U l : U ≠ addr l -> target (as_Object U) ≠ Some l.
Proof. destruct U; simpl; congruence. Qed.

(** ** The original object *)

(** C3: on the substitution path the adapter writes nothing of its own. Let
    the argument implement the capability, and let its accessor, called in
    the state [w], return the reference [U] and leave the state [w1]:
    whatever the accessor does, it is the object's own code. Let the wrapped
    client, and the wrapped status writer, write only through the reference
    they are handed. Then for every operation, every location other than
    the one [U] points to holds after the call what it held when the
    accessor returned; so do the fields of the original object, when they
    are not the storage [U] points to. When the accessor writes nothing,
    [w1] is [w], the state before the call. *)
Theorem original_object_is_left_alone c s ctx key obj list patch u ul
    w U w1 Q w2
    (gopts : Datatypes.list GetOption) (lopts : Datatypes.list ListOption)
    (copts : Datatypes.list CreateOption) (dopts : Datatypes.list DeleteOption)
    (uopts : Datatypes.list UpdateOption) (popts : Datatypes.list PatchOption)
    (aopts : Datatypes.list DeleteAllOfOption) :
  writes_through_argument (WrapperClient.kube c) ->
  status_writer_writes_through_argument (wrapperStatusClient.kube s) ->
  assert_Wrapper obj = Some u ->
  GetUnstructured u w = (U, w1) ->
  assert_ListWrapper list = Some ul ->
  GetUnstructuredList ul w = (Q, w2) ->
  left_alone_except U w1 (WrapperClient.Get c ctx key obj gopts w).2
  /\ left_alone_except Q w2 (WrapperClient.List c ctx list lopts w).2
  /\ left_alone_except U w1 (WrapperClient.Create c ctx obj copts w).2
  /\ left_alone_except U w1 (WrapperClient.Delete c ctx obj dopts w).2
  /\ left_alone_except U w1 (WrapperClient.Update c ctx obj uopts w).2
  /\ left_alone_except U w1 (WrapperClient.Patch c ctx obj patch popts w).2
  /\ left_alone_except U w1 (WrapperClient.DeleteAllOf c ctx obj aopts w).2
  /\ left_alone_except U w1 (wrapperStatusClient.Update s ctx obj uopts w).2
  /\ left_alone_except U w1
       (wrapperStatusClient.Patch s ctx obj patch popts w).2
  /\ (forall l0, target obj = Some l0 -> U ≠ addr l0 ->
        heap (WrapperClient.Update c ctx obj uopts w).2 !! l0
        = heap w1 !! l0).
Proof.
  intros Hk [HsU HsP] Hobj HU Hlist HQ.
  pose proof (fun call U w =>
                @writes_through_reference (WrapperClient.kube c) call U w Hk)
    as F.
  unfold WrapperClient.Get, WrapperClient.List, WrapperClient.Create,
    WrapperClient.Delete, WrapperClient.Update, WrapperClient.Patch,
    WrapperClient.DeleteAllOf, wrapperStatusClient.Update,
    wrapperStatusClient.Patch.
  rewrite Hobj, Hlist. rewrite !run_bind, HU, HQ. simpl.
  split; [|split; [|split; [|split; [|split; [|split;
    [|split; [|split; [|split]]]]]]]].
  - specialize (F (CallGet ctx key obj gopts) U w1).
    simpl in F. by rewrite run_fmap in F.
  - specialize (F (CallList ctx list lopts) Q w2).
    simpl in F. by rewrite run_fmap in F.
  - specialize (F (CallCreate ctx obj copts) U w1).
    simpl in F. by rewrite run_fmap in F.
  - specialize (F (CallDelete ctx obj dopts) U w1).
    simpl in F. by rewrite run_fmap in F.
  - specialize (F (CallUpdate ctx obj uopts) U w1).
    simpl in F. by rewrite run_fmap in F.
  - specialize (F (CallPatch ctx obj patch popts) U w1).
    simpl in F. by rewrite run_fmap in F.
  - specialize (F (CallDeleteAllOf ctx obj aopts) U w1).
    simpl in F. by rewrite run_fmap in F.
  - intros l Hl. apply HsU. by apply target_as_Object.
  - intros l Hl. apply HsP. by apply target_as_Object.
  - intros l0 _ Hl0.
    specialize (F (CallUpdate ctx obj uopts) U w1).
    simpl in F. rewrite run_fmap in F. by apply F.
Qed.

(** ** Errors *)

(** C4: whatever the argument, each operation of the wrapper and of its
    status client returns the result of one call of the identical operation
    of the wrapped client (resp. status writer), on the argument the rule
    forwards: the error and the state the call leaves are those of that
    call, as they are. The type assertions only select the argument; no
    input makes the adapter answer on its own. *)
Theorem error_is_that_of_the_wrapped_client c s ctx key obj list patch w
    (gopts : Datatypes.list GetOption) (lopts : Datatypes.list ListOption)
    (copts : Datatypes.list CreateOption) (dopts : Datatypes.list DeleteOption)
    (uopts : Datatypes.list UpdateOption) (popts : Datatypes.list PatchOption)
    (aopts : Datatypes.list DeleteAllOfOption) :
  let fo := Spec.forwarded_object obj w in
  let fl := Spec.forwarded_list list w in
  WrapperClient.Get c ctx key obj gopts w
    = client.Get (WrapperClient.kube c) ctx key fo.1 gopts fo.2
  /\ WrapperClient.List c ctx list lopts w
    = client.List (WrapperClient.kube c) ctx fl.1 lopts fl.2
  /\ WrapperClient.Create c ctx obj copts w
    = client.Create (WrapperClient.kube c) ctx fo.1 copts fo.2
  /\ WrapperClient.Delete c ctx obj dopts w
    = client.Delete (WrapperClient.kube c) ctx fo.1 dopts fo.2
  /\ WrapperClient.Update c ctx obj uopts w
    = client.Update (WrapperClient.kube c) ctx fo.1 uopts fo.2
  /\ WrapperClient.Patch c ctx obj patch popts w
    = client.Patch (WrapperClient.kube c) ctx fo.1 patch popts fo.2
  /\ WrapperClient.DeleteAllOf c ctx obj aopts w
    = client.DeleteAllOf (WrapperClient.kube c) ctx fo.1 aopts fo.2
  /\ wrapperStatusClient.Update s ctx obj uopts w
    = client.StatusWriter.Update (wrapperStatusClient.kube s) ctx fo.1 uopts
        fo.2
  /\ wrapperStatusClient.Patch s ctx obj patch popts w
    = client.StatusWriter.Patch (wrapperStatusClient.kube s) ctx fo.1 patch
        popts fo.2.
Proof.
  intros fo fl. subst fo fl.
  unfold WrapperClient.Get, WrapperClient.List, WrapperClient.Create,
    WrapperClient.Delete, WrapperClient.Update, WrapperClient.Patch,
    WrapperClient.DeleteAllOf, wrapperStatusClient.Update,
    wrapperStatusClient.Patch.
  destruct (assert_Wrapper obj) as [u|] eqn:Hobj;
    destruct (assert_ListWrapper list) as [ul|] eqn:Hlist.
  - destruct (GetUnstructured u w) as [p w'] eqn:Hp.
    destruct (GetUnstructuredList ul w) as [q w''] eqn:Hq.
    rewrite (@forwarded_object_wrapped obj u w p w' Hobj Hp).
    rewrite (@forwarded_list_wrapped list ul w q w'' Hlist Hq).
    repeat split; rewrite run_bind, ?Hp, ?Hq; reflexivity.
  - destruct (GetUnstructured u w) as [p w'] eqn:Hp.
    rewrite (@forwarded_object_wrapped obj u w p w' Hobj Hp).
    rewrite (@forwarded_list_plain list w Hlist).
    repeat split; rewrite ?run_bind, ?Hp; reflexivity.
  - destruct (GetUnstructuredList ul w) as [q w''] eqn:Hq.
    rewrite (@forwarded_object_plain obj w Hobj).
    rewrite (@forwarded_list_wrapped list ul w q w'' Hlist Hq).
    repeat split; rewrite ?run_bind, ?Hq; reflexivity.
  - rewrite (@forwarded_object_plain obj w Hobj).
    rewrite (@forwarded_list_plain list w Hlist).
    repeat split.
Qed.

(** ** The status subresource *)

(** C5: the status writer that [Status()] returns is a [wrapperStatusClient]
    around the status writer of the wrapped client, and its [Update] and
    [Patch] follow the rule of the wrapper: an object without the capability
    goes to the wrapped status writer as it is, an object with it is replaced
    by the pointer its accessor returns; patch and options are untouched. *)
Theorem status_client_follows_the_rule c w0 ctx plain wrapped patch u w p w'
    (uopts : Datatypes.list UpdateOption) (popts : Datatypes.list PatchOption) :
  assert_Wrapper plain = None ->
  assert_Wrapper wrapped = Some u ->
  GetUnstructured u w = (p, w') ->
  let status := (WrapperClient.Status c w0).1 in
  let under := (client.Status (WrapperClient.kube c) w0).1 in
  status = wrapperStatusClient.as_StatusWriter
             {| wrapperStatusClient.kube := under |}
  /\ client.StatusWriter.Update status ctx plain uopts
    = client.StatusWriter.Update under ctx plain uopts
  /\ client.StatusWriter.Patch status ctx plain patch popts
    = client.StatusWriter.Patch under ctx plain patch popts
  /\ client.StatusWriter.Update status ctx wrapped uopts w
    = client.StatusWriter.Update under ctx (as_Object p) uopts w'
  /\ client.StatusWriter.Patch status ctx wrapped patch popts w
    = client.StatusWriter.Patch under ctx (as_Object p) patch popts w'.
Proof.
  intros Hplain Hwrapped Hp status under.
  assert (E : status = wrapperStatusClient.as_StatusWriter
                         {| wrapperStatusClient.kube := under |}).
  { subst status under. unfold WrapperClient.Status.
    rewrite run_bind, run_ret. reflexivity. }
  split; [exact E|]. rewrite E. simpl.
  unfold wrapperStatusClient.Update, wrapperStatusClient.Patch. simpl.
  rewrite Hplain, Hwrapped.
  repeat split; rewrite run_bind, Hp; reflexivity.
Qed.

(** C6: [Status()] holds nothing back from one call to the next. Each call
    asks the wrapped client for its status writer, in the state of that
    call, and returns a wrapper built around the writer so obtained; two
    calls in a row ask the wrapped client twice and each result wraps the
    writer of its own call. *)
Theorem Status_is_derived_on_each_call c w :
  let wrap sw :=
    wrapperStatusClient.as_StatusWriter {| wrapperStatusClient.kube := sw |} in
  WrapperClient.Status c w
    = (wrap (client.Status (WrapperClient.kube c) w).1,
       (client.Status (WrapperClient.kube c) w).2)
  /\ (s1 ← WrapperClient.Status c; s2 ← WrapperClient.Status c;
      mret (s1, s2)) w
    = (k1 ← client.Status (WrapperClient.kube c);
       k2 ← client.Status (WrapperClient.kube c);
       mret (wrap k1, wrap k2)) w.
Proof.
  intros wrap. unfold WrapperClient.Status. split.
  - rewrite run_bind, run_ret. reflexivity.
  - run_steps. reflexivity.
Qed.

(** ** The accessors *)

(** C7: [Scheme()] and [RESTMapper()] are the accessors of the wrapped
    client, and nothing else. *)
Theorem Scheme_and_RESTMapper_are_forwarded c :
  WrapperClient.Scheme c = client.Scheme (WrapperClient.kube c)
  /\ WrapperClient.RESTMapper c = client.RESTMapper (WrapperClient.kube c).
Proof. split; reflexivity. Qed.

(** ** The wrapped client *)

(** C8: the wrapper made by [NewClient k] holds [k] and nothing else, and
    whatever sequence of calls a caller issues on it, every one of them is
    answered by the rule with [k] as the wrapped client: no call changes the
    client the next one is delegated to. *)
Theorem wrapped_client_is_fixed_at_construction k :
  WrapperClient.kube (NewClient k) = k
  /\ (forall c, c = NewClient (WrapperClient.kube c))
  /\ (forall (calls : Datatypes.list Call) w,
        run (WrapperClient.as_Client (NewClient k)) calls w
        = Spec.delegate k calls w).
Proof.
  split; [reflexivity|]. split; [by intros []|].
  induction calls as [|call rest IH]; intros w; [reflexivity|].
  simpl. rewrite !run_bind, invoke_wrapper_route.
  rewrite IH. reflexivity.
Qed.

(** ** A nil unstructured form *)

(** C10: an object of a type that implements [Wrapper] and whose accessor
    returns nil is still substituted: the wrapped client receives the nil
    pointer, as a [*unstructured.Unstructured] (not as a nil interface), and
    the result is that of the wrapped client. *)
Theorem nil_reference_is_forwarded c s ctx key obj patch u w w'
    (gopts : Datatypes.list GetOption)
    (copts : Datatypes.list CreateOption) (dopts : Datatypes.list DeleteOption)
    (uopts : Datatypes.list UpdateOption) (popts : Datatypes.list PatchOption)
    (aopts : Datatypes.list DeleteAllOfOption) :
  assert_Wrapper obj = Some u ->
  GetUnstructured u w = (nil_pointer, w') ->
  let nil_obj := iface_val ptr_Unstructured nil_pointer in
  nil_obj ≠ iface_nil
  /\ WrapperClient.Get c ctx key obj gopts w
    = client.Get (WrapperClient.kube c) ctx key nil_obj gopts w'
  /\ WrapperClient.Create c ctx obj copts w
    = client.Create (WrapperClient.kube c) ctx nil_obj copts w'
  /\ WrapperClient.Delete c ctx obj dopts w
    = client.Delete (WrapperClient.kube c) ctx nil_obj dopts w'
  /\ WrapperClient.Update c ctx obj uopts w
    = client.Update (WrapperClient.kube c) ctx nil_obj uopts w'
  /\ WrapperClient.Patch c ctx obj patch popts w
    = client.Patch (WrapperClient.kube c) ctx nil_obj patch popts w'
  /\ WrapperClient.DeleteAllOf c ctx obj aopts w
    = client.DeleteAllOf (WrapperClient.kube c) ctx nil_obj aopts w'
  /\ wrapperStatusClient.Update s ctx obj uopts w
    = client.StatusWriter.Update (wrapperStatusClient.kube s) ctx nil_obj
        uopts w'
  /\ wrapperStatusClient.Patch s ctx obj patch popts w
    = client.StatusWriter.Patch (wrapperStatusClient.kube s) ctx nil_obj
        patch popts w'.
Proof.
  intros Hobj Hnil nil_obj. split; [discriminate|].
  unfold WrapperClient.Get, WrapperClient.Create,
    WrapperClient.Delete, WrapperClient.Update, WrapperClient.Patch,
    WrapperClient.DeleteAllOf, wrapperStatusClient.Update,
    wrapperStatusClient.Patch.
  rewrite Hobj.
  repeat split; rewrite run_bind, Hnil; reflexivity.
Qed.

End Properties.

(** ** The two capabilities *)

Section Disjoint.
Context `{Packages} {Ext : Type}.

(** C9: [List] looks for [ListWrapper] only, the object operations look for
    [Wrapper] only. Changing the [Wrapper] methods of the program changes
    nothing to [List], changing the [ListWrapper] methods changes nothing to
    [Get], [Create], [Delete], [Update], [Patch] and [DeleteAllOf]; a list of
    a type [t] that implements [Wrapper] alone goes to the wrapped client as
    it is, and so does an object of a type [t'] that implements
    [ListWrapper] alone. *)
Theorem capabilities_are_checked_apart
    (gu gu' gul gul' : GoType -> option (pointer -> M Ext pointer))
    (t t' : GoType) (body body' : pointer -> M Ext pointer) (p p' : pointer)
    (c : WrapperClient.WrapperClient Ext) ctx key patch
    (gopts : list GetOption) (lopts : list ListOption)
    (copts : list CreateOption) (dopts : list DeleteOption)
    (uopts : list UpdateOption) (popts : list PatchOption)
    (aopts : list DeleteAllOfOption) :
  gu t = Some body -> gul t = None ->
  gul t' = Some body' -> gu t' = None ->
  let ms :=
    {| method_GetUnstructured := gu; method_GetUnstructuredList := gul |} in
  let other_objects :=
    {| method_GetUnstructured := gu'; method_GetUnstructuredList := gul |} in
  let other_lists :=
    {| method_GetUnstructured := gu; method_GetUnstructuredList := gul' |} in
  let k := WrapperClient.kube c in
  (forall l, WrapperClient.List (ms:=ms) c ctx l lopts
             = WrapperClient.List (ms:=other_objects) c ctx l lopts)
  /\ (forall obj,
        WrapperClient.Get (ms:=ms) c ctx key obj gopts
          = WrapperClient.Get (ms:=other_lists) c ctx key obj gopts
        /\ WrapperClient.Create (ms:=ms) c ctx obj copts
          = WrapperClient.Create (ms:=other_lists) c ctx obj copts
        /\ WrapperClient.Delete (ms:=ms) c ctx obj dopts
          = WrapperClient.Delete (ms:=other_lists) c ctx obj dopts
        /\ WrapperClient.Update (ms:=ms) c ctx obj uopts
          = WrapperClient.Update (ms:=other_lists) c ctx obj uopts
        /\ WrapperClient.Patch (ms:=ms) c ctx obj patch popts
          = WrapperClient.Patch (ms:=other_lists) c ctx obj patch popts
        /\ WrapperClient.DeleteAllOf (ms:=ms) c ctx obj aopts
          = WrapperClient.DeleteAllOf (ms:=other_lists) c ctx obj aopts)
  /\ WrapperClient.List (ms:=ms) c ctx (iface_val t p) lopts
     = client.List k ctx (iface_val t p) lopts
  /\ WrapperClient.Get (ms:=ms) c ctx key (iface_val t' p') gopts
     = client.Get k ctx key (iface_val t' p') gopts
  /\ WrapperClient.Create (ms:=ms) c ctx (iface_val t' p') copts
     = client.Create k ctx (iface_val t' p') copts
  /\ WrapperClient.Delete (ms:=ms) c ctx (iface_val t' p') dopts
     = client.Delete k ctx (iface_val t' p') dopts
  /\ WrapperClient.Update (ms:=ms) c ctx (iface_val t' p') uopts
     = client.Update k ctx (iface_val t' p') uopts
  /\ WrapperClient.Patch (ms:=ms) c ctx (iface_val t' p') patch popts
     = client.Patch k ctx (iface_val t' p') patch popts
  /\ WrapperClient.DeleteAllOf (ms:=ms) c ctx (iface_val t' p') aopts
     = client.DeleteAllOf k ctx (iface_val t' p') aopts.
Proof.
  intros Ht Htl Ht'l Ht' ms other_objects other_lists k.
  split; [reflexivity|]. split; [intros obj; repeat split|].
  unfold WrapperClient.Get, WrapperClient.List, WrapperClient.Create,
    WrapperClient.Delete, WrapperClient.Update, WrapperClient.Patch,
    WrapperClient.DeleteAllOf, assert_Wrapper, assert_ListWrapper.
  simpl. rewrite Htl, Ht'. repeat split.
Qed.

End Disjoint.

(** * The double at work *)

Section Double.
#[local] Existing Instance fake.packages.
#[local] Existing Instance fake.methods.

(** The double writes only to the object it is handed. *)
Lemma fake_populate_other v content (w : World fake.Log) l :
  target v ≠ Some l -> heap (fake.populate v content w).2 !! l = heap w !! l.
Proof.
  unfold fake.populate. destruct (target v) as [l'|]; [|done].
  intros Hl. simpl. apply lookup_insert_ne. congruence.
Qed.

Lemma fake_writes_through_argument : writes_through_argument fake.kube.
Proof.
  intros call w l Hl.
  destruct call; simpl in Hl |- *;
    repeat (progress (run_steps; simpl));
    try destruct (fake.not_found key); simpl;
    try (rewrite fake_populate_other by done); reflexivity.
Qed.

Lemma plain_argument_witness :
  assert_Wrapper fake.configmap = None
  /\ assert_ListWrapper fake.composite = None
  /\ WrapperClient.Get fake.wrapper "ctx" fake.foo_bar fake.configmap ["opt"]
     = client.Get fake.kube "ctx" fake.foo_bar fake.configmap ["opt"]
  /\ WrapperClient.List fake.wrapper "ctx" fake.composite ["opt"]
     = client.List fake.kube "ctx" fake.composite ["opt"].
Proof.
  assert (Hobj : assert_Wrapper fake.configmap = None) by reflexivity.
  assert (Hlist : assert_ListWrapper fake.composite = None) by reflexivity.
  split; [exact Hobj|]. split; [exact Hlist|].
  destruct (plain_argument_is_forwarded_as_is fake.wrapper "ctx" fake.foo_bar
              fake.configmap fake.composite "patch"
              ["opt"] ["opt"] [] [] [] [] [] Hobj Hlist)
    as (HGet & HList & _).
  split; [exact HGet | exact HList].
Defined.

Lemma exposed_reference_witness :
  assert_Wrapper fake.composite = Some fake.composite_Wrapper
  /\ GetUnstructured fake.composite_Wrapper fake.world
     = (addr 2%positive, fake.world)
  /\ assert_ListWrapper fake.composites = Some fake.composites_ListWrapper
  /\ GetUnstructuredList fake.composites_ListWrapper fake.world
     = (addr 8%positive, fake.world)
  /\ WrapperClient.Update fake.wrapper "ctx" fake.composite ["opt"] fake.world
     = client.Update fake.kube "ctx" (as_Object (addr 2%positive)) ["opt"]
         fake.world
  /\ WrapperClient.List fake.wrapper "ctx" fake.composites ["opt"] fake.world
     = client.List fake.kube "ctx" (as_ObjectList (addr 8%positive)) ["opt"]
         fake.world.
Proof.
  assert (Hobj : assert_Wrapper fake.composite = Some fake.composite_Wrapper)
    by reflexivity.
  assert (Hp : GetUnstructured fake.composite_Wrapper fake.world
               = (addr 2%positive, fake.world)) by reflexivity.
  assert (Hlist : assert_ListWrapper fake.composites
                  = Some fake.composites_ListWrapper) by reflexivity.
  assert (Hq : GetUnstructuredList fake.composites_ListWrapper fake.world
               = (addr 8%positive, fake.world)) by reflexivity.
  split; [exact Hobj|]. split; [exact Hp|].
  split; [exact Hlist|]. split; [exact Hq|].
  destruct (exposed_reference_is_forwarded fake.wrapper "ctx" fake.foo_bar
              fake.composite fake.composites "patch" fake.world
              [] ["opt"] [] [] ["opt"] [] [] Hobj Hp Hlist Hq)
    as (_ & HList & _ & _ & HUpdate & _).
  split; [exact HUpdate | exact HList].
Defined.

Lemma status_client_witness :
  assert_Wrapper fake.configmap = None
  /\ assert_Wrapper fake.composite = Some fake.composite_Wrapper
  /\ GetUnstructured fake.composite_Wrapper fake.world
     = (addr 2%positive, fake.world)
  /\ client.StatusWriter.Update
       (WrapperClient.Status fake.wrapper fake.world).1 "ctx" fake.configmap
       ["opt"]
     = client.StatusWriter.Update fake.status_writer "ctx" fake.configmap
         ["opt"]
  /\ client.StatusWriter.Patch
       (WrapperClient.Status fake.wrapper fake.world).1 "ctx" fake.composite
       "patch" ["opt"] fake.world
     = client.StatusWriter.Patch fake.status_writer "ctx"
         (as_Object (addr 2%positive)) "patch" ["opt"] fake.world.
Proof.
  assert (Hplain : assert_Wrapper fake.configmap = None) by reflexivity.
  assert (Hobj : assert_Wrapper fake.composite = Some fake.composite_Wrapper)
    by reflexivity.
  assert (Hp : GetUnstructured fake.composite_Wrapper fake.world
               = (addr 2%positive, fake.world)) by reflexivity.
  split; [exact Hplain|]. split; [exact Hobj|]. split; [exact Hp|].
  destruct (status_client_follows_the_rule fake.wrapper fake.world "ctx"
              fake.configmap fake.composite "patch" fake.world
              ["opt"] ["opt"] Hplain Hobj Hp)
    as (_ & HUpdate & _ & _ & HPatch).
  split; [exact HUpdate | exact HPatch].
Defined.

Lemma capabilities_witness :
  method_GetUnstructured "*Composite" = Some fake.embedded
  /\ method_GetUnstructuredList "*Composite" = None
  /\ method_GetUnstructuredList "*CompositeList" = Some fake.embedded
  /\ method_GetUnstructured "*CompositeList" = None
  /\ WrapperClient.List fake.wrapper "ctx" fake.composite ["opt"]
     = client.List fake.kube "ctx" fake.composite ["opt"]
  /\ WrapperClient.Get fake.wrapper "ctx" fake.foo_bar fake.composites ["opt"]
     = client.Get fake.kube "ctx" fake.foo_bar fake.composites ["opt"].
Proof.
  assert (H1 : method_GetUnstructured "*Composite" = Some fake.embedded)
    by reflexivity.
  assert (H2 : method_GetUnstructuredList "*Composite" = None)
    by reflexivity.
  assert (H3 : method_GetUnstructuredList "*CompositeList"
               = Some fake.embedded) by reflexivity.
  assert (H4 : method_GetUnstructured "*CompositeList" = None)
    by reflexivity.
  split; [exact H1|]. split; [exact H2|]. split; [exact H3|].
  split; [exact H4|].
  destruct (capabilities_are_checked_apart
              method_GetUnstructured (fun _ => None)
              method_GetUnstructuredList (fun _ => None)
              "*Composite" "*CompositeList"
              (addr 1%positive) (addr 7%positive) fake.wrapper "ctx" fake.foo_bar "patch"
              ["opt"] ["opt"] [] [] [] [] [] H1 H2 H3 H4)
    as (_ & _ & HList & HGet & _).
  split; [exact HList | exact HGet].
Defined.

Lemma nil_reference_witness :
  assert_Wrapper fake.hollow = Some fake.hollow_Wrapper
  /\ GetUnstructured fake.hollow_Wrapper fake.world
     = (nil_pointer, fake.world)
  /\ WrapperClient.Get fake.wrapper "ctx" fake.foo_bar fake.hollow ["opt"] fake.world
     = client.Get fake.kube "ctx" fake.foo_bar
         (iface_val ptr_Unstructured nil_pointer) ["opt"] fake.world
  /\ wrapperStatusClient.Update fake.status "ctx" fake.hollow ["opt"] fake.world
     = client.StatusWriter.Update fake.status_writer "ctx"
         (iface_val ptr_Unstructured nil_pointer) ["opt"] fake.world.
Proof.
  assert (Hobj : assert_Wrapper fake.hollow = Some fake.hollow_Wrapper)
    by reflexivity.
  assert (Hnil : GetUnstructured fake.hollow_Wrapper fake.world
                 = (nil_pointer, fake.world)) by reflexivity.
  split; [exact Hobj|]. split; [exact Hnil|].
  destruct (nil_reference_is_forwarded fake.wrapper fake.status "ctx" fake.foo_bar
              fake.hollow "patch" fake.world
              ["opt"] [] [] ["opt"] [] [] Hobj Hnil)
    as (_ & HGet & _ & _ & _ & _ & _ & HUpdate & _).
  split; [exact HGet | exact HUpdate].
Defined.

(** The scenarios of the specification, run. *)

(** [Get] with a plain typed object and the key [{name: foo, namespace: bar}]:
    the double receives the same key and the same object, and its nil error
    comes back. *)
Example Get_plain_object :
  let r := WrapperClient.Get fake.wrapper "ctx" fake.foo_bar fake.configmap
             ["get"] fake.world in
  r.1 = nil_error
  /\ ext r.2 = [CallGet "ctx" fake.foo_bar fake.configmap ["get"]]
  /\ heap r.2 !! 5%positive = Some "got foo".
Proof. vm_compute. repeat split. Qed.

(** A non-nil error comes back as the double made it. *)
Example Get_error_comes_back :
  (WrapperClient.Get fake.wrapper "ctx" fake.missing fake.configmap ["get"]
     fake.world).1
  = errors_New "not found".
Proof. reflexivity. Qed.

(** [Update] with a composite whose unstructured form is at 2: the double
    receives the pointer to 2; after the call 2 holds what the server
    returned and the composite at 1 is as it was. *)
Example Update_composite :
  let r := WrapperClient.Update fake.wrapper "ctx" fake.composite ["update"]
             fake.world in
  ext r.2 = [CallUpdate "ctx" (as_Object (addr 2%positive)) ["update"]]
  /\ heap r.2 !! 2%positive = Some "updated"
  /\ heap r.2 !! 1%positive = Some "composite".
Proof. vm_compute. repeat split. Qed.

(** [List] with a composite list: the double receives the exposed list. *)
Example List_composites :
  let r := WrapperClient.List fake.wrapper "ctx" fake.composites ["list"]
             fake.world in
  ext r.2 = [CallList "ctx" (as_ObjectList (addr 8%positive)) ["list"]]
  /\ heap r.2 !! 8%positive = Some "listed"
  /\ heap r.2 !! 7%positive = Some "list".
Proof. vm_compute. repeat split. Qed.

(** [Status()] asked twice of a wrapper around the double whose writer
    changes: each answer is built around the writer of its own call. *)
Example Status_asked_twice :
  ((let c := NewClient fake.rotating in
    s1 ← WrapperClient.Status c;
    e1 ← client.StatusWriter.Update s1 "ctx" fake.composite [];
    s2 ← WrapperClient.Status c;
    e2 ← client.StatusWriter.Update s2 "ctx" fake.composite [];
    e3 ← client.StatusWriter.Update s1 "ctx" fake.composite [];
    mret [e1; e2; e3]) fake.world).1
  = [errors_New "writer 0"; errors_New "later writer"; errors_New "writer 0"].
Proof. reflexivity. Qed.

(** A whole script: one call of the double per call of the caller, in order,
    each on the forwarded argument. *)
Example script_trace :
  let r := run (WrapperClient.as_Client fake.wrapper) fake.script fake.world in
  r.1 = [ ReplyError nil_error; ReplyError nil_error; ReplyError nil_error;
          ReplyError nil_error; ReplyError (errors_New "not found");
          ReplyError (errors_New "nil object"); ReplyScheme "scheme" ]
  /\ ext r.2
     = [ CallGet "ctx" fake.foo_bar fake.configmap ["get"];
         CallUpdate "ctx" (as_Object (addr 2%positive)) ["update"];
         CallList "ctx" (as_ObjectList (addr 8%positive)) ["list"];
         CallStatusPatch "ctx" (as_Object (addr 2%positive)) "patch"
           ["status"];
         CallGet "ctx" fake.missing (as_Object (addr 2%positive)) [];
         CallCreate "ctx" (as_Object nil_pointer) [];
         CallScheme ].
Proof. vm_compute. repeat split. Qed.

End Double.

(** * The double and a program that initialises lazily *)

Section DoubleLazy.
#[local] Existing Instance fake.packages.
#[local] Existing Instance fake.lazy_methods.

Lemma fake_status_writer_writes_through_argument :
  status_writer_writes_through_argument fake.status_writer.
Proof.
  split; intros; simpl; run_steps; simpl;
    by rewrite fake_populate_other.
Qed.

(** The accessor of the lazy object writes to the object itself, at 1, and
    exposes 2. From then on 1 is left alone; so is the lazy list at 7. *)
Lemma original_object_witness :
  writes_through_argument fake.kube
  /\ status_writer_writes_through_argument fake.status_writer
  /\ assert_Wrapper fake.lazy = Some fake.lazy_Wrapper
  /\ GetUnstructured fake.lazy_Wrapper fake.world
     = (addr 2%positive, (fake.lazily (addr 1%positive) fake.world).2)
  /\ assert_ListWrapper fake.lazies = Some fake.lazies_ListWrapper
  /\ GetUnstructuredList fake.lazies_ListWrapper fake.world
     = (addr 8%positive, (fake.lazily (addr 7%positive) fake.world).2)
  /\ heap (fake.lazily (addr 1%positive) fake.world).2 !! 1%positive
     = Some "initialised"
  /\ heap (WrapperClient.Update fake.wrapper "ctx" fake.lazy ["opt"]
             fake.world).2 !! 1%positive
     = heap (fake.lazily (addr 1%positive) fake.world).2 !! 1%positive
  /\ heap (WrapperClient.List fake.wrapper "ctx" fake.lazies ["opt"]
             fake.world).2 !! 7%positive
     = heap (fake.lazily (addr 7%positive) fake.world).2 !! 7%positive.
Proof.
  assert (Hobj : assert_Wrapper fake.lazy = Some fake.lazy_Wrapper)
    by reflexivity.
  assert (HU : GetUnstructured fake.lazy_Wrapper fake.world
               = (addr 2%positive,
                  (fake.lazily (addr 1%positive) fake.world).2))
    by reflexivity.
  assert (Hlist : assert_ListWrapper fake.lazies
                  = Some fake.lazies_ListWrapper) by reflexivity.
  assert (HQ : GetUnstructuredList fake.lazies_ListWrapper fake.world
               = (addr 8%positive,
                  (fake.lazily (addr 7%positive) fake.world).2))
    by reflexivity.
  split; [exact fake_writes_through_argument|].
  split; [exact fake_status_writer_writes_through_argument|].
  split; [exact Hobj|]. split; [exact HU|].
  split; [exact Hlist|]. split; [exact HQ|].
  split; [reflexivity|].
  destruct (original_object_is_left_alone fake.wrapper fake.status "ctx"
              fake.foo_bar fake.lazy fake.lazies "patch" fake.world
              [] ["opt"] [] [] ["opt"] [] []
              fake_writes_through_argument
              fake_status_writer_writes_through_argument
              Hobj HU Hlist HQ)
    as (_ & HList & _ & _ & _ & _ & _ & _ & _ & HUpdate).
  split.
  - apply HUpdate; [reflexivity | discriminate].
  - apply HList. discriminate.
Defined.

End DoubleLazy.

(** * The wrapper among other clients *)

Section Composition.
Context `{Packages} {Ext : Type} {ms : MethodSets Ext}.

Implicit Types (c : WrapperClient.WrapperClient Ext).
Implicit Types (s : wrapperStatusClient.wrapperStatusClient Ext).
Implicit Types (k : client.Client Ext) (w : World Ext).
Implicit Types (obj : client.Object) (list : client.ObjectList).
Implicit Types (u : Wrapper Ext) (ul : ListWrapper Ext) (p : pointer).

(** ** Nil arguments *)

(** A nil interface has no dynamic type, so no assertion on it succeeds and
    the wrapped client receives nil itself. A nil pointer of a type [t] that
    implements [Wrapper] does have one, so the wrapper calls its accessor, on
    the nil receiver; the wrapper puts no guard of its own before that call.
    When the accessor returns there, which one that does not dereference its
    receiver does, the wrapped client receives what it returned. *)
Theorem nil_interface_passes_typed_nil_is_asked c s ctx key patch t body
    w p w'
    (gopts : Datatypes.list GetOption) (lopts : Datatypes.list ListOption)
    (uopts : Datatypes.list UpdateOption) (popts : Datatypes.list PatchOption) :
  method_GetUnstructured t = Some body ->
  body nil_pointer w = (p, w') ->
  WrapperClient.Get c ctx key iface_nil gopts
    = client.Get (WrapperClient.kube c) ctx key iface_nil gopts
  /\ WrapperClient.List c ctx iface_nil lopts
    = client.List (WrapperClient.kube c) ctx iface_nil lopts
  /\ wrapperStatusClient.Patch s ctx iface_nil patch popts
    = client.StatusWriter.Patch (wrapperStatusClient.kube s) ctx iface_nil
        patch popts
  /\ WrapperClient.Update c ctx (iface_val t nil_pointer) uopts w
    = client.Update (WrapperClient.kube c) ctx (as_Object p) uopts w'.
Proof.
  intros Ht Hbody. repeat split.
  unfold WrapperClient.Update, assert_Wrapper. rewrite Ht.
  rewrite run_bind. simpl. rewrite Hbody. reflexivity.
Qed.

(** ** An object and its unstructured form *)

Lemma assert_Wrapper_as_Object p :
  unstructured_is_plain ms -> assert_Wrapper (as_Object p) = None.
Proof. intros [E _]. unfold assert_Wrapper, as_Object. by rewrite E. Qed.

Lemma assert_ListWrapper_as_ObjectList p :
  unstructured_is_plain ms -> assert_ListWrapper (as_ObjectList p) = None.
Proof.
  intros [_ E]. unfold assert_ListWrapper, as_ObjectList. by rewrite E.
Qed.

(** Handing the wrapper an object that exposes [p] and handing it [p]
    itself come to the same, for every operation of the wrapper and of its
    status client: a caller may hold either. *)
Theorem object_and_unstructured_form_agree c s ctx key obj list patch u ul
    w p w' q w''
    (gopts : Datatypes.list GetOption) (lopts : Datatypes.list ListOption)
    (copts : Datatypes.list CreateOption) (dopts : Datatypes.list DeleteOption)
    (uopts : Datatypes.list UpdateOption) (popts : Datatypes.list PatchOption)
    (aopts : Datatypes.list DeleteAllOfOption) :
  unstructured_is_plain ms ->
  assert_Wrapper obj = Some u ->
  GetUnstructured u w = (p, w') ->
  assert_ListWrapper list = Some ul ->
  GetUnstructuredList ul w = (q, w'') ->
  WrapperClient.Get c ctx key obj gopts w
    = WrapperClient.Get c ctx key (as_Object p) gopts w'
  /\ WrapperClient.List c ctx list lopts w
    = WrapperClient.List c ctx (as_ObjectList q) lopts w''
  /\ WrapperClient.Create c ctx obj copts w
    = WrapperClient.Create c ctx (as_Object p) copts w'
  /\ WrapperClient.Delete c ctx obj dopts w
    = WrapperClient.Delete c ctx (as_Object p) dopts w'
  /\ WrapperClient.Update c ctx obj uopts w
    = WrapperClient.Update c ctx (as_Object p) uopts w'
  /\ WrapperClient.Patch c ctx obj patch popts w
    = WrapperClient.Patch c ctx (as_Object p) patch popts w'
  /\ WrapperClient.DeleteAllOf c ctx obj aopts w
    = WrapperClient.DeleteAllOf c ctx (as_Object p) aopts w'
  /\ wrapperStatusClient.Update s ctx obj uopts w
    = wrapperStatusClient.Update s ctx (as_Object p) uopts w'
  /\ wrapperStatusClient.Patch s ctx obj patch popts w
    = wrapperStatusClient.Patch s ctx (as_Object p) patch popts w'.
Proof.
  intros Hplain Hobj Hp Hlist Hq.
  unfold WrapperClient.Get, WrapperClient.List, WrapperClient.Create,
    WrapperClient.Delete, WrapperClient.Update, WrapperClient.Patch,
    WrapperClient.DeleteAllOf, wrapperStatusClient.Update,
    wrapperStatusClient.Patch.
  rewrite (assert_Wrapper_as_Object p Hplain).
  rewrite (assert_ListWrapper_as_ObjectList q Hplain).
  rewrite Hobj, Hlist.
  repeat split; rewrite run_bind, ?Hp, ?Hq; reflexivity.
Qed.

(** ** A wrapper around a wrapper *)

Lemma invoke_wrapper_twice k (call : Call) w :
  unstructured_is_plain ms ->
  invoke (WrapperClient.as_Client
            (NewClient (WrapperClient.as_Client (NewClient k)))) call w
  = invoke (WrapperClient.as_Client (NewClient k)) call w.
Proof.
  intros Hplain.
  pose proof (fun p => assert_Wrapper_as_Object p Hplain) as HO.
  pose proof (fun p => assert_ListWrapper_as_ObjectList p Hplain) as HL.
  destruct Hplain as [E1 E2].
  destruct call; simpl; try reflexivity.
  all: try (unfold WrapperClient.Status; run_steps; simpl).
  all: unfold WrapperClient.Get, WrapperClient.List, WrapperClient.Create,
         WrapperClient.Delete, WrapperClient.Update, WrapperClient.Patch,
         WrapperClient.DeleteAllOf, wrapperStatusClient.Update,
         wrapperStatusClient.Patch; simpl.
  all: try (destruct (assert_Wrapper obj) as [u|] eqn:Hobj).
  all: try (destruct (assert_ListWrapper list) as [ul|] eqn:Hlist).
  all: repeat (progress
         (unfold WrapperClient.Get, WrapperClient.List, WrapperClient.Create,
            WrapperClient.Delete, WrapperClient.Update, WrapperClient.Patch,
            WrapperClient.DeleteAllOf, WrapperClient.Status,
            wrapperStatusClient.Update, wrapperStatusClient.Patch;
          run_steps; simpl;
          rewrite ?HO, ?HL, ?E1, ?E2, ?Hobj, ?Hlist)).
  all: reflexivity.
Qed.

(** Wrapping twice is wrapping once: the outer wrapper substitutes, the
    inner one finds an unstructured form, which has nothing to expose, and
    passes it on. So for every sequence of calls, the status subresource
    included; each accessor is called once, not twice. *)
Theorem wrapping_twice_is_wrapping_once k (calls : Datatypes.list Call) w :
  unstructured_is_plain ms ->
  run (WrapperClient.as_Client
         (NewClient (WrapperClient.as_Client (NewClient k)))) calls w
  = run (WrapperClient.as_Client (NewClient k)) calls w.
Proof.
  intros Hplain. revert w.
  induction calls as [|call rest IH]; intros w; [reflexivity|].
  simpl. rewrite !run_bind, (invoke_wrapper_twice k call w Hplain).
  rewrite IH. reflexivity.
Qed.

(** ** Arguments that expose nothing *)

Lemma exposed_object_None obj :
  Spec.exposed_object obj = None -> assert_Wrapper obj = None.
Proof.
  unfold Spec.exposed_object. by destruct (assert_Wrapper obj).
Qed.

Lemma exposed_list_None list :
  Spec.exposed_list list = None -> assert_ListWrapper list = None.
Proof.
  unfold Spec.exposed_list. by destruct (assert_ListWrapper list).
Qed.

Lemma invoke_wrapper_plain k (call : Call) w :
  Spec.exposed call = None ->
  invoke (WrapperClient.as_Client (NewClient k)) call w = invoke k call w.
Proof.
  intros Hexp. rewrite invoke_wrapper_route.
  destruct call; simpl in *; try reflexivity;
    unfold Spec.forwarded_object, Spec.forwarded_list;
    rewrite Hexp; run_steps; reflexivity.
Qed.

(** As long as no argument exposes an unstructured form, a caller cannot
    tell the wrapper from the client it wraps: the replies and the state
    after any sequence of such calls are those of the wrapped client. *)
Theorem wrapper_is_transparent_to_plain_calls k (calls : Datatypes.list Call)
    w :
  Forall (fun call => Spec.exposed call = None) calls ->
  run (WrapperClient.as_Client (NewClient k)) calls w = run k calls w.
Proof.
  intros Hcalls. revert w.
  induction Hcalls as [|call rest Hcall _ IH]; intros w; [reflexivity|].
  simpl. rewrite !run_bind, (invoke_wrapper_plain k call w Hcall).
  rewrite IH. reflexivity.
Qed.

(** ** One call for one call *)

Lemma forwarded_object_pure obj w :
  accessors_are_pure ms -> (Spec.forwarded_object obj w).2 = w.
Proof.
  intros [Hpure _]. unfold Spec.forwarded_object, Spec.exposed_object.
  destruct obj as [|t p]; simpl; [reflexivity|].
  destruct (method_GetUnstructured t) as [body|] eqn:Ht; simpl;
    [|reflexivity].
  rewrite run_fmap. simpl. by eapply Hpure.
Qed.

Lemma forwarded_list_pure list w :
  accessors_are_pure ms -> (Spec.forwarded_list list w).2 = w.
Proof.
  intros [_ Hpure]. unfold Spec.forwarded_list, Spec.exposed_list.
  destruct list as [|t p]; simpl; [reflexivity|].
  destruct (method_GetUnstructuredList t) as [body|] eqn:Ht; simpl;
    [|reflexivity].
  rewrite run_fmap. simpl. by eapply Hpure.
Qed.

(** With accessors that write nothing, what the wrapper does for a call is
    one call of the wrapped client. *)
Lemma invoke_wrapper_is_one_call k (call : Call) w :
  accessors_are_pure ms ->
  exists call' : Call,
    invoke (WrapperClient.as_Client (NewClient k)) call w = invoke k call' w.
Proof.
  intros Hpure. rewrite invoke_wrapper_route.
  pose proof (fun obj w => forwarded_object_pure obj w Hpure) as HO.
  pose proof (fun list w => forwarded_list_pure list w Hpure) as HL.
  destruct call.
  - exists (CallGet ctx key (Spec.forwarded_object obj w).1 opts).
    simpl. by rewrite run_bind, HO.
  - exists (CallList ctx (Spec.forwarded_list list w).1 opts).
    simpl. by rewrite run_bind, HL.
  - exists (CallCreate ctx (Spec.forwarded_object obj w).1 opts).
    simpl. by rewrite run_bind, HO.
  - exists (CallDelete ctx (Spec.forwarded_object obj w).1 opts).
    simpl. by rewrite run_bind, HO.
  - exists (CallUpdate ctx (Spec.forwarded_object obj w).1 opts).
    simpl. by rewrite run_bind, HO.
  - exists (CallPatch ctx (Spec.forwarded_object obj w).1 patch opts).
    simpl. by rewrite run_bind, HO.
  - exists (CallDeleteAllOf ctx (Spec.forwarded_object obj w).1 opts).
    simpl. by rewrite run_bind, HO.
  - exists (CallStatusUpdate ctx
              (Spec.forwarded_object obj (client.Status k w).2).1 opts).
    simpl. by rewrite !run_bind, HO.
  - exists (CallStatusPatch ctx
              (Spec.forwarded_object obj (client.Status k w).2).1 patch opts).
    simpl. by rewrite !run_bind, HO.
  - by exists CallScheme.
  - by exists CallRESTMapper.
Qed.

(** The wrapper neither drops a call nor repeats one: when the wrapped
    client counts the calls it serves and the accessors write nothing, a
    sequence of n calls on the wrapper moves the count by exactly n. *)
Theorem wrapper_makes_one_call_for_each (count : World Ext -> nat) k
    (calls : Datatypes.list Call) w :
  counts_its_calls count k ->
  accessors_are_pure ms ->
  count (run (WrapperClient.as_Client (NewClient k)) calls w).2
  = length calls + count w.
Proof.
  intros Hk Hpure. revert w.
  induction calls as [|call rest IH]; intros w; [reflexivity|].
  simpl. rewrite !run_bind. simpl. rewrite IH.
  destruct (invoke_wrapper_is_one_call k call w Hpure) as [call' ->].
  rewrite Hk. lia.
Qed.

(** ** Where the results land *)

(** The wrapper is not itself a client that writes only through its
    argument: when an object at [l1] exposes the storage at [l2] and the
    wrapped client populates what it updates, the result of [Update] lands
    at [l2], which the caller did not pass. *)
Theorem wrapper_writes_beyond_its_argument k ctx obj u (l1 l2 : loc) w
    (opts : Datatypes.list UpdateOption) :
  target obj = Some l1 ->
  l1 ≠ l2 ->
  assert_Wrapper obj = Some u ->
  GetUnstructured u w = (addr l2, w) ->
  heap (client.Update k ctx (as_Object (addr l2)) opts w).2 !! l2
    ≠ heap w !! l2 ->
  ~ writes_through_argument (WrapperClient.as_Client (NewClient k)).
Proof.
  intros Hobj Hne Hu Hacc Hwrites Hframe.
  specialize (Hframe (CallUpdate ctx obj opts) w l2).
  simpl in Hframe. rewrite Hobj in Hframe.
  assert (Hl : Some l1 ≠ Some l2) by congruence.
  specialize (Hframe Hl). apply Hwrites. rewrite <- Hframe.
  rewrite run_fmap. simpl.
  unfold WrapperClient.Update. simpl. rewrite Hu, run_bind, Hacc.
  reflexivity.
Qed.

(** ** What the wrapped client is shown *)

Lemma forwarded_object_exposes_nothing obj w :
  unstructured_is_plain ms ->
  Spec.exposed_object (Spec.forwarded_object obj w).1 = None.
Proof.
  intros Hplain. unfold Spec.forwarded_object.
  destruct (Spec.exposed_object obj) as [accessor|] eqn:Hexp.
  - rewrite run_fmap. simpl. unfold Spec.exposed_object.
    by rewrite (assert_Wrapper_as_Object _ Hplain).
  - exact Hexp.
Qed.

Lemma forwarded_list_exposes_nothing list w :
  unstructured_is_plain ms ->
  Spec.exposed_list (Spec.forwarded_list list w).1 = None.
Proof.
  intros Hplain. unfold Spec.forwarded_list.
  destruct (Spec.exposed_list list) as [accessor|] eqn:Hexp.
  - rewrite run_fmap. simpl. unfold Spec.exposed_list.
    by rewrite (assert_ListWrapper_as_ObjectList _ Hplain).
  - exact Hexp.
Qed.

(** The wrapped client is never handed an argument its own wrapper would
    substitute: with accessors that write nothing, every call on the
    wrapper is one call of the wrapped client, of the same method with the
    same context, key, patch and options, in the same state, on an argument
    that fails the assertion this method makes ([Wrapper] for the object
    operations, [ListWrapper] for [List]). The other capability is not
    looked at: a list type handed to [Get] stays as it is. *)
Theorem wrapped_client_is_shown_plain_arguments_only k (call : Call) w :
  unstructured_is_plain ms ->
  accessors_are_pure ms ->
  exists call' : Call,
    invoke (WrapperClient.as_Client (NewClient k)) call w = invoke k call' w
    /\ Spec.exposed call' = None
    /\ forall U, Spec.with_reference call' U = Spec.with_reference call U.
Proof.
  intros Hplain Hpure. rewrite invoke_wrapper_route.
  pose proof (fun obj w => forwarded_object_pure obj w Hpure) as HO.
  pose proof (fun list w => forwarded_list_pure list w Hpure) as HL.
  pose proof (fun obj w => forwarded_object_exposes_nothing obj w Hplain)
    as HOn.
  pose proof (fun list w => forwarded_list_exposes_nothing list w Hplain)
    as HLn.
  destruct call.
  - exists (CallGet ctx key (Spec.forwarded_object obj w).1 opts).
    simpl. by rewrite run_bind, HO, HOn.
  - exists (CallList ctx (Spec.forwarded_list list w).1 opts).
    simpl. by rewrite run_bind, HL, HLn.
  - exists (CallCreate ctx (Spec.forwarded_object obj w).1 opts).
    simpl. by rewrite run_bind, HO, HOn.
  - exists (CallDelete ctx (Spec.forwarded_object obj w).1 opts).
    simpl. by rewrite run_bind, HO, HOn.
  - exists (CallUpdate ctx (Spec.forwarded_object obj w).1 opts).
    simpl. by rewrite run_bind, HO, HOn.
  - exists (CallPatch ctx (Spec.forwarded_object obj w).1 patch opts).
    simpl. by rewrite run_bind, HO, HOn.
  - exists (CallDeleteAllOf ctx (Spec.forwarded_object obj w).1 opts).
    simpl. by rewrite run_bind, HO, HOn.
  - exists (CallStatusUpdate ctx
              (Spec.forwarded_object obj (client.Status k w).2).1 opts).
    simpl. by rewrite !run_bind, HO, HOn.
  - exists (CallStatusPatch ctx
              (Spec.forwarded_object obj (client.Status k w).2).1 patch opts).
    simpl. by rewrite !run_bind, HO, HOn.
  - by exists CallScheme.
  - by exists CallRESTMapper.
Qed.

End Composition.

(** * The double among other clients *)

Section DoubleComposition.
#[local] Existing Instance fake.packages.
#[local] Existing Instance fake.methods.

Lemma fake_unstructured_is_plain : unstructured_is_plain fake.methods.
Proof. split; reflexivity. Qed.

Lemma fake_accessors_are_pure : accessors_are_pure fake.methods.
Proof.
  split; intros t body p w; simpl;
    repeat (destruct (String.eqb t _); [intros [= <-]; reflexivity|]);
    discriminate.
Qed.

(** The double appends one entry to its log for each call it serves. *)
Lemma fake_counts_its_calls :
  counts_its_calls (fun w => length (ext w)) fake.kube.
Proof.
  intros call w.
  destruct call; simpl; repeat (progress (run_steps; simpl));
    try destruct (fake.not_found key); simpl;
    unfold fake.populate; try destruct (target _); simpl;
    rewrite length_app; simpl; apply Nat.add_1_r.
Qed.

(** [*Hollow] returns nil without a look at its receiver, so its accessor
    returns on a nil receiver too. *)
Lemma nil_argument_witness :
  method_GetUnstructured "*Hollow" = Some (fun _ => mret nil_pointer)
  /\ (mret nil_pointer : M fake.Log pointer) fake.world
     = (nil_pointer, fake.world)
  /\ WrapperClient.Get fake.wrapper "ctx" fake.foo_bar iface_nil ["opt"]
     = client.Get fake.kube "ctx" fake.foo_bar iface_nil ["opt"]
  /\ WrapperClient.Update fake.wrapper "ctx"
       (iface_val "*Hollow" nil_pointer) ["opt"] fake.world
     = client.Update fake.kube "ctx" (as_Object nil_pointer) ["opt"]
         fake.world.
Proof.
  assert (Ht : method_GetUnstructured "*Hollow"
               = Some (fun _ => mret nil_pointer)) by reflexivity.
  assert (Hbody : (fun _ : pointer => (mret nil_pointer : M fake.Log pointer))
                    nil_pointer fake.world
                  = (nil_pointer, fake.world)) by reflexivity.
  split; [exact Ht|]. split; [reflexivity|].
  destruct (nil_interface_passes_typed_nil_is_asked fake.wrapper fake.status
              "ctx" fake.foo_bar "patch" "*Hollow" fake.world
              ["opt"] [] ["opt"] [] Ht Hbody)
    as (HGet & _ & _ & HUpdate).
  split; [exact HGet | exact HUpdate].
Defined.

Lemma object_and_unstructured_form_witness :
  unstructured_is_plain fake.methods
  /\ assert_Wrapper fake.composite = Some fake.composite_Wrapper
  /\ GetUnstructured fake.composite_Wrapper fake.world
     = (addr 2%positive, fake.world)
  /\ assert_ListWrapper fake.composites = Some fake.composites_ListWrapper
  /\ GetUnstructuredList fake.composites_ListWrapper fake.world
     = (addr 8%positive, fake.world)
  /\ WrapperClient.Get fake.wrapper "ctx" fake.foo_bar fake.composite ["opt"]
       fake.world
     = WrapperClient.Get fake.wrapper "ctx" fake.foo_bar
         (as_Object (addr 2%positive)) ["opt"] fake.world
  /\ WrapperClient.List fake.wrapper "ctx" fake.composites ["opt"] fake.world
     = WrapperClient.List fake.wrapper "ctx" (as_ObjectList (addr 8%positive))
         ["opt"] fake.world.
Proof.
  assert (Hobj : assert_Wrapper fake.composite = Some fake.composite_Wrapper)
    by reflexivity.
  assert (Hp : GetUnstructured fake.composite_Wrapper fake.world
               = (addr 2%positive, fake.world)) by reflexivity.
  assert (Hlist : assert_ListWrapper fake.composites
                  = Some fake.composites_ListWrapper) by reflexivity.
  assert (Hq : GetUnstructuredList fake.composites_ListWrapper fake.world
               = (addr 8%positive, fake.world)) by reflexivity.
  split; [exact fake_unstructured_is_plain|].
  split; [exact Hobj|]. split; [exact Hp|].
  split; [exact Hlist|]. split; [exact Hq|].
  destruct (object_and_unstructured_form_agree fake.wrapper fake.status "ctx"
              fake.foo_bar fake.composite fake.composites "patch" fake.world
              ["opt"] ["opt"] [] [] [] [] []
              fake_unstructured_is_plain Hobj Hp Hlist Hq)
    as (HGet & HList & _).
  split; [exact HGet | exact HList].
Defined.

Lemma wrapping_twice_witness :
  unstructured_is_plain fake.methods
  /\ run (WrapperClient.as_Client
            (NewClient (WrapperClient.as_Client (NewClient fake.kube))))
       fake.script fake.world
     = run (WrapperClient.as_Client (NewClient fake.kube)) fake.script
         fake.world.
Proof.
  split; [exact fake_unstructured_is_plain|].
  exact (wrapping_twice_is_wrapping_once fake.kube fake.script fake.world
           fake_unstructured_is_plain).
Defined.

Lemma transparent_witness :
  Forall (fun call => Spec.exposed call = None)
    [CallGet "ctx" fake.foo_bar fake.configmap ["opt"];
     CallStatusUpdate "ctx" fake.configmap []; CallScheme]
  /\ run (WrapperClient.as_Client (NewClient fake.kube))
       [CallGet "ctx" fake.foo_bar fake.configmap ["opt"];
        CallStatusUpdate "ctx" fake.configmap []; CallScheme] fake.world
     = run fake.kube
         [CallGet "ctx" fake.foo_bar fake.configmap ["opt"];
          CallStatusUpdate "ctx" fake.configmap []; CallScheme] fake.world.
Proof.
  assert (Hcalls : Forall (fun call => Spec.exposed call = None)
            [CallGet "ctx" fake.foo_bar fake.configmap ["opt"];
             CallStatusUpdate "ctx" fake.configmap []; CallScheme])
    by (repeat constructor).
  split; [exact Hcalls|].
  exact (wrapper_is_transparent_to_plain_calls fake.kube fake.world Hcalls).
Defined.

Lemma one_call_for_each_witness :
  counts_its_calls (fun w => length (ext w)) fake.kube
  /\ accessors_are_pure fake.methods
  /\ length (ext (run (WrapperClient.as_Client (NewClient fake.kube))
                    fake.script fake.world).2)
     = length fake.script + length (ext fake.world).
Proof.
  split; [exact fake_counts_its_calls|].
  split; [exact fake_accessors_are_pure|].
  exact (wrapper_makes_one_call_for_each fake.script fake.world
           fake_counts_its_calls fake_accessors_are_pure).
Defined.

Lemma writes_beyond_argument_witness :
  target fake.composite = Some 1%positive
  /\ 1%positive ≠ 2%positive
  /\ assert_Wrapper fake.composite = Some fake.composite_Wrapper
  /\ GetUnstructured fake.composite_Wrapper fake.world
     = (addr 2%positive, fake.world)
  /\ heap (client.Update fake.kube "ctx" (as_Object (addr 2%positive)) ["opt"]
             fake.world).2 !! 2%positive
     ≠ heap fake.world !! 2%positive
  /\ ~ writes_through_argument (WrapperClient.as_Client (NewClient fake.kube)).
Proof.
  assert (H1 : target fake.composite = Some 1%positive) by reflexivity.
  assert (H2 : 1%positive ≠ 2%positive) by discriminate.
  assert (H3 : assert_Wrapper fake.composite = Some fake.composite_Wrapper)
    by reflexivity.
  assert (H4 : GetUnstructured fake.composite_Wrapper fake.world
               = (addr 2%positive, fake.world)) by reflexivity.
  assert (H5 : heap (client.Update fake.kube "ctx"
                       (as_Object (addr 2%positive)) ["opt"] fake.world).2
                 !! 2%positive
               ≠ heap fake.world !! 2%positive) by (vm_compute; discriminate).
  split; [exact H1|]. split; [exact H2|]. split; [exact H3|].
  split; [exact H4|]. split; [exact H5|].
  exact (wrapper_writes_beyond_its_argument "ctx" fake.composite ["opt"]
           H1 H2 H3 H4 H5).
Defined.

Lemma plain_arguments_only_witness :
  unstructured_is_plain fake.methods
  /\ accessors_are_pure fake.methods
  /\ exists call' : Call,
       invoke (WrapperClient.as_Client (NewClient fake.kube))
         fake.update_composite fake.world
       = invoke fake.kube call' fake.world
       /\ Spec.exposed call' = None
       /\ forall U, Spec.with_reference call' U
                    = Spec.with_reference fake.update_composite U.
Proof.
  split; [exact fake_unstructured_is_plain|].
  split; [exact fake_accessors_are_pure|].
  exact (wrapped_client_is_shown_plain_arguments_only fake.kube
           fake.update_composite fake.world
           fake_unstructured_is_plain fake_accessors_are_pure).
Defined.

End DoubleComposition.
